(** * code_insight.mcp_server: the HTTP routes of the demo server

    Shallow embedding of [src/code_insight/mcp_server.py]: the three custom
    routes [show_info], [serve_static] and [root_redirect], together with the
    parts of Python's [str] and [pathlib] they call.

    The handlers run in a small exception-and-state monad.  The state is the
    filesystem as the operating system presents it, plus the log of the
    filesystem calls issued so far. *)

From Stdlib Require Import String Ascii List Bool ZArith.
From Stdlib.Strings Require Import Byte.
Import ListNotations.
Local Open Scope string_scope.
Local Open Scope list_scope.

Set Implicit Arguments.

(** ** Python [str] methods used by the handlers *)

Module PyStr.

(** [bool(s)]: a string is truthy when it is not empty. *)
Definition truthy (s : string) : bool :=
  match s with
  | EmptyString => false
  | String _ _ => true
  end.

(** [s.startswith(p)] *)
Fixpoint startswith (s p : string) {struct p} : bool :=
  match p, s with
  | EmptyString, _ => true
  | String _ _, EmptyString => false
  | String c p', String d s' => Ascii.eqb d c && startswith s' p'
  end.

(** [s.endswith(suffix)]: [s] is [suffix] itself, or its tail ends with it. *)
Fixpoint endswith (s suffix : string) : bool :=
  String.eqb s suffix
  || match s with
     | EmptyString => false
     | String _ s' => endswith s' suffix
     end.

(** [c in chars] *)
Fixpoint contains (chars : string) (c : ascii) : bool :=
  match chars with
  | EmptyString => false
  | String d chars' => Ascii.eqb c d || contains chars' c
  end.

(** [s.rstrip(chars)]: drops the longest suffix made of characters of
    [chars]. *)
Fixpoint rstrip (s chars : string) : string :=
  match s with
  | EmptyString => EmptyString
  | String c s' =>
      match rstrip s' chars with
      | EmptyString => if contains chars c then EmptyString else String c EmptyString
      | r => String c r
      end
  end.

(** [s.split(sep)] for a one-character separator. *)
Fixpoint split (sep : ascii) (s : string) : list string :=
  match s with
  | EmptyString => [EmptyString]
  | String c s' =>
      if Ascii.eqb c sep then EmptyString :: split sep s'
      else match split sep s' with
           | h :: t => String c h :: t
           | [] => [String c EmptyString]
           end
  end.

(** [sep.join(xs)] *)
Definition join (sep : string) (xs : list string) : string := String.concat sep xs.

(** [s[n:]] *)
Fixpoint drop (n : nat) (s : string) : string :=
  match n, s with
  | O, _ => s
  | S _, EmptyString => EmptyString
  | S n', String _ s' => drop n' s'
  end.

(** [s * n] *)
Fixpoint times (s : string) (n : nat) : string :=
  match n with
  | O => EmptyString
  | S n' => s ++ times s n'
  end.

End PyStr.

(** ** [pathlib.PurePosixPath] *)

Module Pathlib.
Import PyStr.

Definition sep : ascii := "/"%char.

(** A parsed path: the root ([""], ["/"] or ["//"]) and the components after
    it.  There is no drive on POSIX. *)
Record Path : Type := mkPath { root : string; tail : list string }.

(** [posixpath.splitroot]: one leading slash, or three and more, give the
    root ["/"]; exactly two give ["//"]. *)
Definition splitroot (p : string) : string * string :=
  if negb (startswith p "/") then ("", p)
  else if negb (startswith (drop 1 p) "/") || startswith (drop 2 p) "/" then ("/", drop 1 p)
  else ("//", drop 2 p).

(** [PurePath._parse_path]: empty and ["."] components are dropped, [".."]
    is kept. *)
Definition keep_component (x : string) : bool := truthy x && negb (String.eqb x ".").

Definition parse_path (p : string) : Path :=
  let '(r, rel) := splitroot p in
  mkPath r (filter keep_component (split sep rel)).

(** [str(path)] *)
Definition str (p : Path) : string :=
  match root p ++ join "/" (tail p) with
  | EmptyString => "."
  | s => s
  end.

(** [path / key]: a [key] with a root replaces [path]; a relative [key]
    extends it.  The join resolves nothing: [".."] stays in the tail. *)
Definition truediv (p : Path) (key : string) : Path :=
  let k := parse_path key in
  if truthy (root k) then k else mkPath (root p) (tail p ++ tail k).


(** [path.is_relative_to(other)]: containment component by component. *)
Fixpoint list_prefix (xs ys : list string) : bool :=
  match xs, ys with
  | [], _ => true
  | x :: xs', y :: ys' => String.eqb x y && list_prefix xs' ys'
  | _ :: _, [] => false
  end.

Definition is_relative_to (p other : Path) : bool :=
  String.eqb (root p) (root other) && list_prefix (tail other) (tail p).

End Pathlib.

Notation "p // key" := (Pathlib.truediv p key) (at level 40, left associativity).
Import PyStr Pathlib.

(** ** Exceptions, the filesystem and the handler monad *)

(** The exception classes the handlers can meet.  [Path.resolve] raises
    [ValueError] on an embedded null byte and [RuntimeError] on a symlink
    loop; it re-raises any other [OSError] of the operating system. *)
Inductive exn : Type := ValueError | RuntimeError | OSError.

Inductive result (A : Type) : Type :=
| Ok (a : A)
| Raise (e : exn).
Arguments Ok {A} a.
Arguments Raise {A} e.

(** [S_ISREG], [S_ISDIR] and the rest of [st_mode]. *)
Inductive file_kind : Type := Regular | Directory | Special.

(** The error numbers [os.stat] can fail with. *)
Inductive errno : Type :=
| ENOENT | ENOTDIR | EBADF | ELOOP | EACCES | ENAMETOOLONG | EIO.

(** What [os.stat] raises when it fails: an [OSError] with its error number,
    or [ValueError] (an embedded null byte). *)
Inductive stat_failure : Type :=
| StatOSError (e : errno)
| StatValueError.

(** [pathlib._ignore_error]: the error numbers that mean "the path names
    nothing". *)
Definition ignore_error (e : errno) : bool :=
  match e with
  | ENOENT | ENOTDIR | EBADF | ELOOP => true
  | EACCES | ENAMETOOLONG | EIO => false
  end.

(** The filesystem as the process observes it: what [Path.resolve()]
    (not strict) answers, what [os.stat] answers ([None] when it raises, and
    then [fs_stat_failure] is what it raises) and the bytes of the regular
    files. *)
Record FileSystem : Type := mkFS {
  fs_resolve : Path -> result Path;
  fs_stat : Path -> option file_kind;
  fs_stat_failure : Path -> stat_failure;
  fs_read : Path -> option (list byte)
}.

(** The filesystem calls a handler can issue. *)
Inductive syscall : Type :=
| SysResolve (p : Path)
| SysStat (p : Path)
| SysRead (p : Path).

Definition is_metadata_check (c : syscall) : bool :=
  match c with
  | SysResolve _ | SysStat _ => true
  | SysRead _ => false
  end.

Record World : Type := mkWorld { fs : FileSystem; calls : list syscall }.

Definition M (A : Type) : Type := World -> result A * World.

Definition ret {A} (a : A) : M A := fun w => (Ok a, w).

Definition bind {A B} (m : M A) (k : A -> M B) : M B :=
  fun w =>
    match m w with
    | (Ok a, w') => k a w'
    | (Raise e, w') => (Raise e, w')
    end.

Notation "x <- m ;; k" := (bind m (fun x => k))
  (at level 61, m at next level, right associativity).
Notation "m ;;; k" := (bind m (fun _ => k))
  (at level 61, right associativity).

(** [try: body except classes: handler] *)
Definition try_except {A} (body : M A) (classes : list exn) (handler : M A) : M A :=
  fun w =>
    match body w with
    | (Ok a, w') => (Ok a, w')
    | (Raise e, w') =>
        if existsb (fun c => match c, e with
                             | ValueError, ValueError
                             | RuntimeError, RuntimeError
                             | OSError, OSError => true
                             | _, _ => false
                             end) classes
        then handler w' else (Raise e, w')
    end.

Definition log (c : syscall) (w : World) : World := mkWorld (fs w) (calls w ++ [c]).

(** [path.resolve()] *)
Definition resolve (p : Path) : M Path :=
  fun w => (fs_resolve (fs w) p, log (SysResolve p) w).

(** The body of [Path.is_file]: [S_ISREG(self.stat().st_mode)]; an [OSError]
    of [stat] gives [False] when [_ignore_error] lists its error number and is
    raised again when it does not; a [ValueError] gives [False]. *)
Definition stat_is_regular (f : FileSystem) (p : Path) : result bool :=
  match fs_stat f p with
  | Some Regular => Ok true
  | Some _ => Ok false
  | None =>
      match fs_stat_failure f p with
      | StatOSError e => if ignore_error e then Ok false else Raise OSError
      | StatValueError => Ok false
      end
  end.

(** [path.is_file()] *)
Definition is_file (p : Path) : M bool :=
  fun w => (stat_is_regular (fs w) p, log (SysStat p) w).

(** ** Requests and responses (starlette) *)

Record Request : Type := mkRequest {
  url_path : string;
  query_string : string;
  path_params : list (string * string)
}.

(** [d.get(key, default)]; the dictionary is only ever read, so an
    association list stands for it. *)
Fixpoint dict_get (d : list (string * string)) (key default : string) : string :=
  match d with
  | [] => default
  | (k, v) :: d' => if String.eqb k key then v else dict_get d' key default
  end.

Inductive Response : Type :=
| PlainTextResponse (content : string) (status_code : Z)
| HTMLResponse (content : string) (status_code : Z)
| FileResponse (path : Path)
| RedirectResponse (url : string) (status_code : Z).

(** The two rejections of [serve_static]. *)
Definition forbidden : Response := HTMLResponse "Forbidden" 403.
Definition not_found : Response := HTMLResponse "Not Found" 404.

Definition status_code_of (r : Response) : Z :=
  match r with
  | PlainTextResponse _ c | HTMLResponse _ c | RedirectResponse _ c => c
  | FileResponse _ => 200
  end.

Definition media_type_of (r : Response) : option string :=
  match r with
  | PlainTextResponse _ _ => Some "text/plain"
  | HTMLResponse _ _ => Some "text/html"
  | FileResponse _ | RedirectResponse _ _ => None
  end.

Definition location_of (r : Response) : option string :=
  match r with
  | RedirectResponse url _ => Some url
  | _ => None
  end.

(** The body the framework sends: the encoded text of a text response, nothing
    for a redirect, and for a [FileResponse] the bytes read from the file,
    [RuntimeError] when there is no such file any more. *)
Definition send_body (r : Response) : M (list byte) :=
  match r with
  | PlainTextResponse content _ | HTMLResponse content _ => ret (list_byte_of_string content)
  | RedirectResponse _ _ => ret []
  | FileResponse p =>
      fun w => (match fs_read (fs w) p with
                | Some data => Ok data
                | None => Raise RuntimeError
                end, log (SysRead p) w)
  end.

(** ** The handlers *)

Section Server.

(** [STATIC_DIR = Path(__file__).parent / "static"] *)
Variable STATIC_DIR : Path.

Definition show_info (request : Request) : M Response :=
  ret (PlainTextResponse "Health Ok!" 200).

(** Lines 41-42: the default document for an empty or directory-like
    [filepath]. *)
Definition default_document (filepath : string) : string :=
  if negb (truthy filepath) || endswith filepath "/" then
    if truthy filepath then rstrip filepath "/" ++ "/index.html" else "index.html"
  else filepath.

(** The security check of lines 47-53.  [inl] is an early [return] of the
    handler, [inr] the resolved [file_path] it goes on with. *)
Definition security_check (file_path : Path) : M (Response + Path) :=
  try_except
    (file_path <- resolve file_path ;;
     resolve STATIC_DIR ;;;
     static_dir <- resolve STATIC_DIR ;;
     if negb (startswith (str file_path) (str static_dir)) then
       ret (inl (HTMLResponse "Forbidden" 403))
     else ret (inr file_path))
    [ValueError; RuntimeError]
    (ret (inl (HTMLResponse "Forbidden" 403))).

Definition serve_static (request : Request) : M Response :=
  let filepath := dict_get (path_params request) "filepath" "" in
  let filepath := default_document filepath in
  let file_path := STATIC_DIR // filepath in
  checked <- security_check file_path ;;
  match checked with
  | inl response => ret response
  | inr file_path =>
      exists_ <- is_file file_path ;;
      if negb exists_ then ret (HTMLResponse "Not Found" 404)
      else ret (FileResponse file_path)
  end.

(** The [file_path] of line 44, before it is resolved. *)
Definition requested_file (request : Request) : Path :=
  STATIC_DIR // default_document (dict_get (path_params request) "filepath" "").

Definition root_redirect (request : Request) : M Response :=
  ret (RedirectResponse "/static/" 302).

(** The routes registered with [mcp.custom_route], in source order.  A
    pattern is a literal path, or a literal prefix followed by one
    [{name:path}] parameter.  Starlette compiles the one to the regular
    expression [^path$] and the other to [^prefix], a group named [name] that
    holds [.*], and [$]; it matches the path of the request with
    [re.match]. *)
Inductive pattern : Type :=
| Literal (path : string)
| WithPathParam (prefix name : string).

Definition newline : ascii := "010"%char.

(** [re.match] of [.*$]: [.] takes any character but a newline, and [$]
    stands at the end of the string or before a newline that ends it.  The
    answer is what [.*] took. *)
Fixpoint dot_star_dollar (s : string) : option string :=
  match s with
  | EmptyString => Some EmptyString
  | String c s' =>
      if Ascii.eqb c newline then
        match s' with
        | EmptyString => Some EmptyString
        | String _ _ => None
        end
      else option_map (String c) (dot_star_dollar s')
  end.

(** The methods of a starlette [Route]: [HEAD] comes with [GET]. *)
Definition route_methods (methods : list string) : list string :=
  if existsb (String.eqb "GET") methods then "HEAD" :: methods else methods.

Definition custom_routes : list (pattern * list string * (Request -> M Response)) :=
  [ (Literal "/info", ["GET"], show_info);
    (WithPathParam "/static/" "filepath", ["GET"], serve_static);
    (Literal "/", ["GET"], root_redirect) ].

Definition match_pattern (pat : pattern) (path : string) : option (list (string * string)) :=
  match pat with
  | Literal p =>
      if String.eqb p path || String.eqb (p ++ String newline "") path then Some []
      else None
  | WithPathParam prefix name =>
      if startswith path prefix then
        match dot_star_dollar (drop (String.length prefix) path) with
        | Some value => Some [(name, value)]
        | None => None
        end
      else None
  end.

(** The first route whose pattern and methods fit handles the request; [None]
    when no custom route does. *)
Fixpoint dispatch (routes : list (pattern * list string * (Request -> M Response)))
         (method path query : string) : option (M Response) :=
  match routes with
  | [] => None
  | (pat, methods, handler) :: routes' =>
      match match_pattern pat path with
      | Some params =>
          if existsb (String.eqb method) (route_methods methods)
          then Some (handler (mkRequest path query params))
          else dispatch routes' method path query
      | None => dispatch routes' method path query
      end
  end.

Definition app (method path query : string) : option (M Response) :=
  dispatch custom_routes method path query.

End Server.

(** ** A concrete POSIX filesystem

    An instance of [FileSystem] over a table of inodes, used to run the
    handlers on examples. *)

Module Posix.

Inductive inode : Type :=
| RegularFile (data : list byte)
| Dir
| Symlink (target : string)
| UnreadableLink.   (* [lstat] sees a link, [readlink] fails (EACCES), as for
                       [/proc/<pid>/exe] of another user's process *)

(** The table is keyed by the components of the absolute path of an inode. *)
Record disk : Type := mkDisk {
  cwd : list string;
  inodes : list (list string * inode)
}.

Fixpoint lookup (table : list (list string * inode)) (key : list string) : option inode :=
  match table with
  | [] => None
  | (k, v) :: table' =>
      if list_eq_dec string_dec k key then Some v else lookup table' key
  end.

(** The kernel gives up with ELOOP after this many symbolic links. *)
Definition MAXSYMLINKS : nat := 40.

(** [os.path.realpath], not strict: walks [rest] from the directory [cur];
    [".."] goes up, a component that names nothing is kept as it is written, a
    symbolic link is replaced by the components of its target. *)
Fixpoint realpath (links : nat) (d : disk) (cur rest : list string) {struct links}
  : result (list string) :=
  (fix walk (cur rest : list string) {struct rest} : result (list string) :=
     match rest with
     | [] => Ok cur
     | name :: rest' =>
         if String.eqb name ".." then walk (removelast cur) rest'
         else
           match lookup (inodes d) (cur ++ [name]) with
           | Some (Symlink target) =>
               match links with
               | O => Raise RuntimeError
               | S links' =>
                   let t := parse_path target in
                   realpath links' d (if truthy (root t) then [] else cur) (tail t ++ rest')
               end
           | Some UnreadableLink => Raise OSError
           | _ => walk (cur ++ [name]) rest'
           end
     end) cur rest.

Definition has_null_byte (p : Path) : bool :=
  existsb (fun x => contains x "000"%char) (tail p).

(** [Path.resolve()]: [ValueError] on an embedded null byte, [RuntimeError] on
    a symlink loop.  The answer is under the root ["/"]. *)
Definition resolve_on (d : disk) (p : Path) : result Path :=
  if has_null_byte p then Raise ValueError
  else
    match realpath MAXSYMLINKS d (if truthy (root p) then [] else cwd d) (tail p) with
    | Ok c => Ok (mkPath "/" c)
    | Raise e => Raise e
    end.

Definition inode_at (d : disk) (p : Path) : option inode :=
  match resolve_on d p with
  | Ok c =>
      match tail c with
      | [] => Some Dir
      | key => lookup (inodes d) key
      end
  | Raise _ => None
  end.

(** A file name is at most [NAME_MAX] characters long. *)
Definition NAME_MAX : nat := 255.

Definition name_too_long (p : Path) : bool :=
  existsb (fun x => Nat.ltb NAME_MAX (String.length x)) (tail p).

Definition stat_on (d : disk) (p : Path) : option file_kind :=
  if name_too_long p then None
  else
    match inode_at d p with
    | Some (RegularFile _) => Some Regular
    | Some Dir => Some Directory
    | _ => None
    end.

(** What [os.stat] raises when [stat_on] has no answer. *)
Definition stat_failure_on (d : disk) (p : Path) : stat_failure :=
  if has_null_byte p then StatValueError
  else if name_too_long p then StatOSError ENAMETOOLONG
  else
    match resolve_on d p with
    | Raise RuntimeError => StatOSError ELOOP
    | Raise OSError => StatOSError EACCES
    | _ => StatOSError ENOENT
    end.

Definition read_on (d : disk) (p : Path) : option (list byte) :=
  match inode_at d p with
  | Some (RegularFile data) => Some data
  | _ => None
  end.

Definition mount (d : disk) : FileSystem :=
  mkFS (resolve_on d) (stat_on d) (stat_failure_on d) (read_on d).

Definition boot (d : disk) : World := mkWorld (mount d) [].

End Posix.

(** ** Example deployment: the asset root [/srv/static] *)

Module Example.
Import Posix.

Definition srv_static : Path := parse_path "/srv/static".

Definition srv_disk : disk :=
  mkDisk []
    [ (["srv"], Dir);
      (["srv"; "static"], Dir);
      (["srv"; "static"; "index.html"], RegularFile (list_byte_of_string "<h1>home</h1>"));
      (["srv"; "static"; "docs"], Dir);
      (["srv"; "static"; "docs"; "index.html"], RegularFile (list_byte_of_string "<h1>docs</h1>"));
      (["srv"; "static"; "report.pdf"], RegularFile (list_byte_of_string "%PDF-1.7"));
      (["srv"; "static"; "loop"], Symlink "loop");
      (["srv"; "static"; "etc"], Symlink "/etc");
      (["srv"; "static-evil"], Dir);
      (["srv"; "static-evil"; "secret.txt"], RegularFile (list_byte_of_string "s3cr3t"));
      (["etc"], Dir);
      (["etc"; "passwd"], RegularFile (list_byte_of_string "root:x:0:0"));
      (["proc"], Dir);
      (["proc"; "1"], Dir);
      (["proc"; "1"; "exe"], UnreadableLink) ].

(** The request starlette builds for [GET /static/<filepath>]. *)
Definition static_request (filepath : string) : Request :=
  mkRequest ("/static/" ++ filepath) "" [("filepath", filepath)].

Definition get_static (filepath : string) : result Response * World :=
  serve_static srv_static (static_request filepath) (boot srv_disk).

Definition abs_path (components : list string) : Path := mkPath "/" components.

End Example.
Import Example.

(** ** Resolved paths *)

(** A component of a resolved path is a file name: not empty, no separator
    in it. *)
Definition component_ok (x : string) : bool := truthy x && negb (contains x sep).

(** What [Path.resolve()] returns on POSIX: an absolute path under the root
    ["/"] made of file names. *)
Definition resolved_form (p : Path) : bool :=
  String.eqb (root p) "/" && forallb component_ok (tail p).

(** ** The tools *)

Module Tools.

(** A text handed to a tool is any Python [str]: a sequence of code points. *)
Definition text : Type := list N.

(** [mirror_tool]: [text[::-1]], the code points from the last to the first. *)
Definition mirror_tool (t : text) : text := rev t.

End Tools.
Import Tools.

(** * Properties *)

(** ** Strings and paths *)


(** What [rstrip] leaves does not end with a separator ... *)
Lemma rstrip_no_trailing_sep (s : string) : endswith (rstrip s "/") "/" = false.
Proof.
  induction s as [|c s IH]; [reflexivity|].
  simpl rstrip. destruct (rstrip s "/") as [|d r] eqn:E.
  - simpl. destruct (Ascii.eqb_spec c "/") as [->|Hc]; [reflexivity|].
    simpl. destruct (Ascii.eqb_spec c "/"); [contradiction | reflexivity].
  - change (endswith (String c (String d r)) "/")
      with (String.eqb (String c (String d r)) "/" || endswith (String d r) "/").
    rewrite IH. simpl. now destruct (Ascii.eqb c "/").
Qed.

(** ... and what it drops is separators only. *)
Lemma rstrip_drops_seps (s : string) : exists n, s = (rstrip s "/" ++ times "/" n)%string.
Proof.
  induction s as [|c s [n IH]]; [now exists 0|].
  simpl rstrip. destruct (rstrip s "/") as [|d r] eqn:E.
  - simpl in IH. simpl. destruct (Ascii.eqb_spec c "/") as [->|Hc].
    + exists (S n). simpl. now rewrite <- IH.
    + exists n. simpl. now rewrite <- IH.
  - exists n. simpl. simpl in IH. now rewrite <- IH.
Qed.

Lemma rstrip_head (c : ascii) (s : string) :
  rstrip (String c s) "/" = "" \/ exists r, rstrip (String c s) "/" = String c r.
Proof.
  cbn [rstrip]. destruct (rstrip s "/").
  - destruct (contains "/" c); [now left | right; now eexists].
  - right; now eexists.
Qed.

Lemma default_document_dir (filepath : string) :
  endswith filepath "/" = true ->
  default_document filepath = (rstrip filepath "/" ++ "/index.html")%string.
Proof.
  intros H. unfold default_document. rewrite H, orb_true_r.
  destruct filepath; [discriminate H | reflexivity].
Qed.

Lemma default_document_file (filepath : string) :
  truthy filepath = true -> endswith filepath "/" = false ->
  default_document filepath = filepath.
Proof. intros H1 H2. unfold default_document. now rewrite H1, H2. Qed.





(** ** The existence check *)

Lemma stat_is_regular_true (f : FileSystem) (p : Path) :
  stat_is_regular f p = Ok true <-> fs_stat f p = Some Regular.
Proof.
  unfold stat_is_regular. split.
  - destruct (fs_stat f p) as [[]|]; try discriminate; [reflexivity|].
    destruct (fs_stat_failure f p) as [e|]; [destruct (ignore_error e)|]; discriminate.
  - now intros ->.
Qed.

Lemma stat_is_regular_raise (f : FileSystem) (p : Path) (e : exn) :
  stat_is_regular f p = Raise e ->
  e = OSError /\ fs_stat f p = None /\
  exists n, fs_stat_failure f p = StatOSError n /\ ignore_error n = false.
Proof.
  unfold stat_is_regular.
  destruct (fs_stat f p) as [[]|]; try discriminate.
  destruct (fs_stat_failure f p) as [n|]; [|discriminate].
  destruct (ignore_error n) eqn:E; [discriminate|].
  intros [= <-]. repeat split. now exists n.
Qed.

(** ** One run of [serve_static] *)

Section ServeStatic.

Variable STATIC_DIR : Path.

(** The run of the handler, call by call: the response (or the exception that
    leaves the handler) and the filesystem calls logged on the way. *)
Lemma serve_static_run (request : Request) (w : World) :
  serve_static STATIC_DIR request w =
  let f := requested_file STATIC_DIR request in
  let w1 := log (SysResolve f) w in
  let w2 := log (SysResolve STATIC_DIR) w1 in
  let w3 := log (SysResolve STATIC_DIR) w2 in
  match fs_resolve (fs w) f with
  | Raise OSError => (Raise OSError, w1)
  | Raise _ => (Ok forbidden, w1)
  | Ok c =>
      match fs_resolve (fs w) STATIC_DIR with
      | Raise OSError => (Raise OSError, w2)
      | Raise _ => (Ok forbidden, w2)
      | Ok r =>
          if startswith (str c) (str r) then
            (match stat_is_regular (fs w) c with
             | Ok true => Ok (FileResponse c)
             | Ok false => Ok not_found
             | Raise e => Raise e
             end, log (SysStat c) w3)
          else (Ok forbidden, w3)
      end
  end.
Proof.
  unfold serve_static, security_check, requested_file, bind, try_except,
    resolve, is_file, ret, forbidden, not_found.
  cbn [fs log].
  destruct (fs_resolve (fs w) _) as [c|[]]; cbn [existsb orb]; try reflexivity.
  destruct (fs_resolve (fs w) STATIC_DIR) as [r|[]]; cbn [existsb orb]; try reflexivity.
  destruct (startswith (str c) (str r)); cbn [negb]; [|reflexivity].
  cbn [fs log]. now destruct (stat_is_regular (fs w) c) as [[]|].
Qed.

(** The handler never touches the filesystem itself ... *)
Lemma serve_static_fs (request : Request) (w : World) :
  fs (snd (serve_static STATIC_DIR request w)) = fs w.
Proof.
  rewrite serve_static_run. cbv zeta.
  destruct (fs_resolve (fs w) _) as [c|[]]; try reflexivity.
  destruct (fs_resolve (fs w) STATIC_DIR) as [r|[]]; try reflexivity.
  now destruct (startswith (str c) (str r)).
Qed.

(** ... its answer depends on the filesystem and the [filepath] parameter
    only ... *)
Lemma serve_static_fst (request request' : Request) (w w' : World) :
  fs w = fs w' ->
  dict_get (path_params request) "filepath" "" =
  dict_get (path_params request') "filepath" "" ->
  fst (serve_static STATIC_DIR request w) = fst (serve_static STATIC_DIR request' w').
Proof.
  intros Hfs Hp. rewrite !serve_static_run. cbv zeta.
  unfold requested_file. rewrite Hfs, Hp.
  destruct (fs_resolve (fs w') _) as [c|[]]; try reflexivity.
  destruct (fs_resolve (fs w') STATIC_DIR) as [r|[]]; try reflexivity.
  now destruct (startswith (str c) (str r)).
Qed.

(** ... and all it asks the filesystem are metadata checks. *)
Lemma serve_static_calls (request : Request) (w : World) :
  exists new,
    calls (snd (serve_static STATIC_DIR request w)) = calls w ++ new /\
    forallb is_metadata_check new = true /\
    hd_error new = Some (SysResolve (requested_file STATIC_DIR request)).
Proof.
  rewrite serve_static_run. cbv zeta.
  set (f := requested_file STATIC_DIR request).
  destruct (fs_resolve (fs w) f) as [c|e].
  - destruct (fs_resolve (fs w) STATIC_DIR) as [r|e].
    + destruct (startswith (str c) (str r)).
      * exists [SysResolve f; SysResolve STATIC_DIR; SysResolve STATIC_DIR; SysStat c].
        cbn [snd log calls fs]. rewrite <- !app_assoc. now split.
      * exists [SysResolve f; SysResolve STATIC_DIR; SysResolve STATIC_DIR].
        cbn [snd log calls fs]. rewrite <- !app_assoc. now split.
    + exists [SysResolve f; SysResolve STATIC_DIR].
      destruct e; cbn [snd log calls fs]; rewrite <- !app_assoc; now split.
  - exists [SysResolve f]. destruct e; cbn [snd log calls fs]; now split.
Qed.

End ServeStatic.

(** ** The containment check *)

(** C1, at the input where it fails.  With the asset root [/srv/static], the
    request [../static-evil/secret.txt] resolves to a file of the sibling
    directory [/srv/static-evil]; that path is not inside the root, yet its
    string starts with the root's string, so the handler answers with a
    [FileResponse] for it and the framework sends the file's bytes.  A request
    that leaves the root without such a colliding prefix, [../../etc/passwd],
    is answered 403. *)
Theorem sibling_with_root_prefix_is_served :
  let secret := abs_path ["srv"; "static-evil"; "secret.txt"] in
  let run := get_static "../static-evil/secret.txt" in
  fs_resolve (fs (Posix.boot srv_disk))
    (requested_file srv_static (static_request "../static-evil/secret.txt")) = Ok secret /\
  is_relative_to secret srv_static = false /\
  fst run = Ok (FileResponse secret) /\
  fst (send_body (FileResponse secret) (snd run)) = Ok (list_byte_of_string "s3cr3t") /\
  fst (get_static "../../etc/passwd") = Ok forbidden.
Proof. vm_compute. repeat split. Qed.

(** C2, as the code has it: once the requested file and the root are both
    resolved, the handler goes on to the existence check exactly when the
    string of the resolved file starts with the string of the resolved root,
    and answers 403 exactly when it does not.  The existence check answers with
    the file or with 404, or lets the [OSError] of [is_file] out.  The test is
    on strings: [/srv/static-evil] passes for the root [/srv/static] although
    it is not inside it. *)
Theorem containment_is_string_prefix
    (STATIC_DIR : Path) (request : Request) (w : World) (c r : Path) :
  fs_resolve (fs w) (requested_file STATIC_DIR request) = Ok c ->
  fs_resolve (fs w) STATIC_DIR = Ok r ->
  let run := serve_static STATIC_DIR request w in
  let checks := [SysResolve (requested_file STATIC_DIR request);
                 SysResolve STATIC_DIR; SysResolve STATIC_DIR] in
  (startswith (str c) (str r) = true <->
   (fst run = Ok (FileResponse c) \/ fst run = Ok not_found \/ fst run = Raise OSError)) /\
  (startswith (str c) (str r) = true ->
   calls (snd run) = calls w ++ checks ++ [SysStat c]) /\
  (startswith (str c) (str r) = false <-> fst run = Ok forbidden) /\
  (startswith (str c) (str r) = false -> calls (snd run) = calls w ++ checks) /\
  (startswith (str (parse_path "/srv/static-evil")) (str (parse_path "/srv/static")) = true /\
   is_relative_to (parse_path "/srv/static-evil") (parse_path "/srv/static") = false).
Proof.
  intros Hc Hr run checks. subst run checks.
  rewrite serve_static_run. cbv zeta. rewrite Hc, Hr.
  destruct (startswith (str c) (str r)); cbn [fst snd log calls fs].
  - repeat split; try discriminate; try (rewrite <- !app_assoc; reflexivity).
    + intros _. destruct (stat_is_regular (fs w) c) as [[]|e] eqn:E; auto.
      destruct (stat_is_regular_raise _ _ E) as [-> _]. auto.
    + intros H. exfalso. destruct (stat_is_regular (fs w) c) as [[]|]; discriminate H.
  - repeat split; try discriminate; try (rewrite <- !app_assoc; reflexivity).
    intros [H|[H|H]]; discriminate H.
Qed.

(** C2 as it is written fails: for a file name of 300 characters the prefix
    test passes, and the request yields neither the file nor 404: [stat] fails
    with ENAMETOOLONG and [is_file], which is outside the [try], lets the
    [OSError] out. *)
Lemma accepted_request_can_raise :
  let request := static_request (times "a" 300) in
  let c := abs_path ["srv"; "static"; times "a" 300] in
  let r := abs_path ["srv"; "static"] in
  fs_resolve (fs (Posix.boot srv_disk)) (requested_file srv_static request) = Ok c /\
  fs_resolve (fs (Posix.boot srv_disk)) srv_static = Ok r /\
  startswith (str c) (str r) = true /\
  fst (get_static (times "a" 300)) = Raise OSError /\
  fst (get_static (times "a" 300)) <> Ok (FileResponse c) /\
  fst (get_static (times "a" 300)) <> Ok not_found.
Proof. vm_compute. repeat split; discriminate. Qed.

Lemma containment_is_string_prefix_witness :
  let request := static_request "../static-evil/secret.txt" in
  let secret := abs_path ["srv"; "static-evil"; "secret.txt"] in
  fs_resolve (fs (Posix.boot srv_disk)) (requested_file srv_static request) = Ok secret /\
  fs_resolve (fs (Posix.boot srv_disk)) srv_static = Ok (abs_path ["srv"; "static"]) /\
  (startswith (str secret) (str (abs_path ["srv"; "static"])) = true <->
   (fst (get_static "../static-evil/secret.txt") = Ok (FileResponse secret) \/
    fst (get_static "../static-evil/secret.txt") = Ok not_found \/
    fst (get_static "../static-evil/secret.txt") = Raise OSError)).
Proof.
  intros request secret.
  assert (Hc : fs_resolve (fs (Posix.boot srv_disk)) (requested_file srv_static request)
               = Ok secret) by (vm_compute; reflexivity).
  assert (Hr : fs_resolve (fs (Posix.boot srv_disk)) srv_static
               = Ok (abs_path ["srv"; "static"])) by (vm_compute; reflexivity).
  split; [exact Hc|]. split; [exact Hr|].
  exact (proj1 (containment_is_string_prefix srv_static request (Posix.boot srv_disk) Hc Hr)).
Defined.

(** ** The default document *)

(** C3: an empty [filepath] becomes [index.html]; a [filepath] that ends with
    a separator loses all its trailing separators and gets [/index.html]
    appended; any other [filepath] is left as it is.  The handler resolves the
    join of the root with the outcome, so [""] targets [<root>/index.html] and
    ["docs/"] targets [<root>/docs/index.html]. *)
Theorem default_document_cases (STATIC_DIR : Path) :
  (default_document "" = "index.html" /\
   STATIC_DIR // default_document "" =
   mkPath (root STATIC_DIR) (tail STATIC_DIR ++ ["index.html"])) /\
  (forall filepath, endswith filepath "/" = true ->
     default_document filepath = (rstrip filepath "/" ++ "/index.html")%string /\
     endswith (rstrip filepath "/") "/" = false /\
     exists n, filepath = (rstrip filepath "/" ++ times "/" (S n))%string) /\
  (default_document "docs/" = "docs/index.html" /\
   STATIC_DIR // default_document "docs/" =
   mkPath (root STATIC_DIR) (tail STATIC_DIR ++ ["docs"; "index.html"]) /\
   str (srv_static // default_document "docs/") = "/srv/static/docs/index.html") /\
  (forall filepath, truthy filepath = true -> endswith filepath "/" = false ->
     default_document filepath = filepath) /\
  (forall request w,
     requested_file STATIC_DIR request =
     STATIC_DIR // default_document (dict_get (path_params request) "filepath" "") /\
     exists rest,
       calls (snd (serve_static STATIC_DIR request w)) =
       calls w ++ SysResolve (requested_file STATIC_DIR request) :: rest).
Proof.
  split; [split; reflexivity|].
  split.
  { intros filepath H. split; [now apply default_document_dir|].
    split; [apply rstrip_no_trailing_sep|].
    destruct (rstrip_drops_seps filepath) as [[|n] Hn]; [|now exists n].
    exfalso. cbn [times] in Hn.
    assert (E : rstrip filepath "/" = filepath).
    { rewrite Hn at 2. clear. induction (rstrip filepath "/"); simpl; congruence. }
    pose proof (rstrip_no_trailing_sep filepath) as Hno.
    rewrite E in Hno. congruence. }
  split; [repeat split; reflexivity|].
  split; [exact default_document_file|].
  intros request w. split; [reflexivity|].
  destruct (serve_static_calls STATIC_DIR request w) as (new & Hcalls & _ & Hhd).
  destruct new as [|x rest]; [discriminate Hhd|].
  injection Hhd as ->. now exists rest.
Qed.

Lemma default_document_cases_witness :
  endswith "docs///" "/" = true /\
  default_document "docs///" = "docs/index.html" /\
  truthy "report.pdf" = true /\ endswith "report.pdf" "/" = false /\
  default_document "report.pdf" = "report.pdf".
Proof.
  pose proof (default_document_cases srv_static) as (_ & Hdir & _ & Hfile & _).
  split; [reflexivity|].
  split; [exact (proj1 (Hdir "docs///" eq_refl))|].
  split; [reflexivity|]. split; [reflexivity|].
  exact (Hfile "report.pdf" eq_refl eq_refl).
Defined.

(** ** The three outcomes *)

(** C4: when the resolved file passes the containment check and is a regular
    file, the handler answers with a [FileResponse] for exactly the resolved
    path, and the body the framework sends for it is the content of that
    file. *)
Theorem regular_file_is_found
    (STATIC_DIR : Path) (request : Request) (w : World) (c r : Path) (data : list byte) :
  fs_resolve (fs w) (requested_file STATIC_DIR request) = Ok c ->
  fs_resolve (fs w) STATIC_DIR = Ok r ->
  startswith (str c) (str r) = true ->
  fs_stat (fs w) c = Some Regular ->
  fs_read (fs w) c = Some data ->
  let run := serve_static STATIC_DIR request w in
  fst run = Ok (FileResponse c) /\
  status_code_of (FileResponse c) = 200%Z /\
  fst (send_body (FileResponse c) (snd run)) = Ok data.
Proof.
  intros Hc Hr Hpre Hstat Hread run. subst run.
  split.
  - rewrite serve_static_run. cbv zeta.
    now rewrite Hc, Hr, Hpre, (proj2 (stat_is_regular_true _ _) Hstat).
  - split; [reflexivity|].
    cbn [send_body fst]. now rewrite serve_static_fs, Hread.
Qed.

Lemma regular_file_is_found_witness :
  let report := abs_path ["srv"; "static"; "report.pdf"] in
  fs_stat (fs (Posix.boot srv_disk)) report = Some Regular /\
  fs_read (fs (Posix.boot srv_disk)) report = Some (list_byte_of_string "%PDF-1.7") /\
  fst (get_static "report.pdf") = Ok (FileResponse report) /\
  fst (send_body (FileResponse report) (snd (get_static "report.pdf")))
  = Ok (list_byte_of_string "%PDF-1.7").
Proof.
  intros report.
  assert (Hc : fs_resolve (fs (Posix.boot srv_disk))
                 (requested_file srv_static (static_request "report.pdf")) = Ok report)
    by (vm_compute; reflexivity).
  assert (Hr : fs_resolve (fs (Posix.boot srv_disk)) srv_static
               = Ok (abs_path ["srv"; "static"])) by (vm_compute; reflexivity).
  assert (Hpre : startswith (str report) (str (abs_path ["srv"; "static"])) = true)
    by (vm_compute; reflexivity).
  assert (Hstat : fs_stat (fs (Posix.boot srv_disk)) report = Some Regular)
    by (vm_compute; reflexivity).
  assert (Hread : fs_read (fs (Posix.boot srv_disk)) report
                  = Some (list_byte_of_string "%PDF-1.7")) by (vm_compute; reflexivity).
  split; [exact Hstat|]. split; [exact Hread|].
  destruct (regular_file_is_found srv_static (static_request "report.pdf")
              (Posix.boot srv_disk) Hc Hr Hpre Hstat Hread) as (H1 & _ & H3).
  split; [exact H1 | exact H3].
Defined.

(** C5, as the code has it: when resolving the requested file raises
    [ValueError] or [RuntimeError], the handler answers 403 with the fixed body
    ["Forbidden"], whatever the request was; an exception of another class is
    not caught and leaves the handler. *)
Theorem resolve_failure_is_forbidden
    (STATIC_DIR : Path) (request : Request) (w : World) (e : exn) :
  fs_resolve (fs w) (requested_file STATIC_DIR request) = Raise e ->
  let run := serve_static STATIC_DIR request w in
  (e = ValueError \/ e = RuntimeError ->
   fst run = Ok (HTMLResponse "Forbidden" 403) /\
   fst (send_body (HTMLResponse "Forbidden" 403) (snd run))
   = Ok (list_byte_of_string "Forbidden")) /\
  (e = OSError -> fst run = Raise OSError).
Proof.
  intros He run. subst run. rewrite serve_static_run. cbv zeta. rewrite He.
  split.
  - intros [-> | ->]; split; reflexivity.
  - intros ->. reflexivity.
Qed.

Lemma resolve_failure_is_forbidden_witness :
  fs_resolve (fs (Posix.boot srv_disk))
    (requested_file srv_static (static_request "loop")) = Raise RuntimeError /\
  fst (get_static "loop") = Ok (HTMLResponse "Forbidden" 403).
Proof.
  assert (He : fs_resolve (fs (Posix.boot srv_disk))
                 (requested_file srv_static (static_request "loop")) = Raise RuntimeError)
    by (vm_compute; reflexivity).
  split; [exact He|].
  exact (proj1 (proj1 (resolve_failure_is_forbidden srv_static (static_request "loop")
                         (Posix.boot srv_disk) He) (or_intror eq_refl))).
Defined.

(** C5 as it is written fails: resolving [/proc/1/exe] raises [OSError], a
    failure of canonicalization, and the request is not answered 403: the
    exception leaves the handler. *)
Lemma oserror_is_not_forbidden :
  fs_resolve (fs (Posix.boot srv_disk))
    (requested_file srv_static (static_request "/proc/1/exe")) = Raise OSError /\
  fst (get_static "/proc/1/exe") = Raise OSError /\
  fst (get_static "/proc/1/exe") <> Ok (HTMLResponse "Forbidden" 403).
Proof. vm_compute. repeat split. discriminate. Qed.

(** C6, as the code has it: when the resolved file passes the containment
    check and is not a regular file, the handler answers 404 with the body
    ["Not Found"] if [stat] answers (a directory, a special file) or fails
    with ENOENT, ENOTDIR, EBADF or ELOOP (the path names nothing) or with
    [ValueError]; when [stat] fails with another [OSError], [is_file] raises it
    again outside the [try] and it leaves the handler.  A [filepath] that names
    a directory without a trailing separator gets no default document: the
    file that is checked is the directory itself. *)
Theorem not_a_file_is_not_found
    (STATIC_DIR : Path) (request : Request) (w : World) (c r : Path) :
  fs_resolve (fs w) (requested_file STATIC_DIR request) = Ok c ->
  fs_resolve (fs w) STATIC_DIR = Ok r ->
  startswith (str c) (str r) = true ->
  fs_stat (fs w) c <> Some Regular ->
  let filepath := dict_get (path_params request) "filepath" "" in
  let run := serve_static STATIC_DIR request w in
  ((exists kind, fs_stat (fs w) c = Some kind) \/
   fs_stat_failure (fs w) c = StatValueError \/
   (exists e, fs_stat_failure (fs w) c = StatOSError e /\
              In e [ENOENT; ENOTDIR; EBADF; ELOOP]) ->
   fst run = Ok (HTMLResponse "Not Found" 404) /\
   fst (send_body (HTMLResponse "Not Found" 404) (snd run))
   = Ok (list_byte_of_string "Not Found")) /\
  (forall e, fs_stat (fs w) c = None -> fs_stat_failure (fs w) c = StatOSError e ->
             ~ In e [ENOENT; ENOTDIR; EBADF; ELOOP] ->
             fst run = Raise OSError) /\
  (truthy filepath = true -> endswith filepath "/" = false ->
   requested_file STATIC_DIR request = STATIC_DIR // filepath).
Proof.
  intros Hc Hr Hpre Hstat filepath run. subst run filepath.
  rewrite serve_static_run. cbv zeta. rewrite Hc, Hr, Hpre. cbn [fst snd].
  unfold stat_is_regular. split; [|split].
  - intros Hcase. split; [|reflexivity].
    destruct (fs_stat (fs w) c) as [[]|]; try reflexivity; [now elim Hstat|].
    destruct Hcase as [[kind Hk] | [-> | (e & -> & He)]]; [discriminate Hk|reflexivity|].
    destruct e; try reflexivity; exfalso; cbn in He; intuition discriminate.
  - intros e -> -> He.
    destruct e; try reflexivity; exfalso; apply He; cbn; auto.
  - intros H1 H2. unfold requested_file. now rewrite default_document_file.
Qed.

Lemma not_a_file_is_not_found_witness :
  let docs := abs_path ["srv"; "static"; "docs"] in
  fs_stat (fs (Posix.boot srv_disk)) docs = Some Directory /\
  requested_file srv_static (static_request "docs") = docs /\
  fst (get_static "docs") = Ok (HTMLResponse "Not Found" 404).
Proof.
  intros docs.
  assert (Hc : fs_resolve (fs (Posix.boot srv_disk))
                 (requested_file srv_static (static_request "docs")) = Ok docs)
    by (vm_compute; reflexivity).
  assert (Hr : fs_resolve (fs (Posix.boot srv_disk)) srv_static
               = Ok (abs_path ["srv"; "static"])) by (vm_compute; reflexivity).
  assert (Hpre : startswith (str docs) (str (abs_path ["srv"; "static"])) = true)
    by (vm_compute; reflexivity).
  assert (Hstat : fs_stat (fs (Posix.boot srv_disk)) docs = Some Directory)
    by (vm_compute; reflexivity).
  assert (Hnot : fs_stat (fs (Posix.boot srv_disk)) docs <> Some Regular)
    by (rewrite Hstat; discriminate).
  split; [exact Hstat|].
  destruct (not_a_file_is_not_found srv_static (static_request "docs")
              (Posix.boot srv_disk) Hc Hr Hpre Hnot) as (H1 & _ & H3).
  split; [|exact (proj1 (H1 (or_introl (ex_intro _ Directory Hstat))))].
  rewrite (H3 eq_refl eq_refl). vm_compute. reflexivity.
Defined.

(** C6 as it is written fails: a file name of 256 characters names nothing
    under the root and passes the containment check, and the request is not
    answered 404: [stat] fails with ENAMETOOLONG and the [OSError] leaves the
    handler. *)
Lemma missing_file_with_long_name_raises :
  let request := static_request (times "b" 256) in
  let c := abs_path ["srv"; "static"; times "b" 256] in
  let r := abs_path ["srv"; "static"] in
  fs_resolve (fs (Posix.boot srv_disk)) (requested_file srv_static request) = Ok c /\
  fs_resolve (fs (Posix.boot srv_disk)) srv_static = Ok r /\
  startswith (str c) (str r) = true /\
  fs_stat (fs (Posix.boot srv_disk)) c = None /\
  fs_stat_failure (fs (Posix.boot srv_disk)) c = StatOSError ENAMETOOLONG /\
  fst (get_static (times "b" 256)) = Raise OSError /\
  fst (get_static (times "b" 256)) <> Ok (HTMLResponse "Not Found" 404).
Proof. vm_compute. repeat split; discriminate. Qed.

(** ** Purity *)

(** C7: the answer of the handler is determined by the root, the [filepath]
    parameter and the filesystem; the handler leaves the filesystem as it found
    it and asks it metadata checks only ([resolve] and [stat]); a second call
    after the first gives the same answer. *)
Theorem serve_static_is_pure
    (STATIC_DIR : Path) (request request' : Request) (w w' : World) :
  fs w = fs w' ->
  dict_get (path_params request) "filepath" "" =
  dict_get (path_params request') "filepath" "" ->
  let first := serve_static STATIC_DIR request w in
  let second := serve_static STATIC_DIR request (snd first) in
  fst first = fst (serve_static STATIC_DIR request' w') /\
  fst second = fst first /\
  fs (snd first) = fs w /\
  fs (snd second) = fs w /\
  exists new,
    calls (snd first) = calls w ++ new /\ forallb is_metadata_check new = true.
Proof.
  intros Hfs Hp first second. subst first second.
  split; [now apply serve_static_fst|].
  split; [apply serve_static_fst; [apply serve_static_fs | reflexivity]|].
  split; [apply serve_static_fs|].
  split; [now rewrite !serve_static_fs|].
  destruct (serve_static_calls STATIC_DIR request w) as (new & H1 & H2 & _).
  now exists new.
Qed.

Lemma serve_static_is_pure_witness :
  let request := static_request "report.pdf" in
  let request' := mkRequest "/static/report.pdf" "v=2" [("filepath", "report.pdf")] in
  let w := Posix.boot srv_disk in
  let w' := snd (get_static "docs/") in
  fs w = fs w' /\
  fst (serve_static srv_static request w) = fst (serve_static srv_static request' w').
Proof.
  intros request request' w w'.
  assert (Hfs : fs w = fs w') by (symmetry; apply serve_static_fs).
  split; [exact Hfs|].
  exact (proj1 (serve_static_is_pure srv_static request request' w w' Hfs eq_refl)).
Defined.

(** ** Absolute requests *)



(** ** The fixed routes *)

(** C9: [GET /] is routed to [root_redirect] whatever the query string, and
    [root_redirect] answers every request with a 302 redirect to [/static/]
    without a single filesystem call. *)
Theorem root_always_redirects
    (STATIC_DIR : Path) (query : string) (request : Request) (w : World) :
  app STATIC_DIR "GET" "/" query = Some (root_redirect (mkRequest "/" query [])) /\
  root_redirect request w = (Ok (RedirectResponse "/static/" 302), w) /\
  status_code_of (RedirectResponse "/static/" 302) = 302%Z /\
  location_of (RedirectResponse "/static/" 302) = Some "/static/".
Proof. repeat split. Qed.

(** C10: [GET /info] is routed to [show_info], and [show_info] answers every
    request with the plain text ["Health Ok!"] and status 200 without a single
    filesystem call. *)
Theorem info_always_healthy
    (STATIC_DIR : Path) (query : string) (request : Request) (w : World) :
  app STATIC_DIR "GET" "/info" query = Some (show_info (mkRequest "/info" query [])) /\
  show_info request w = (Ok (PlainTextResponse "Health Ok!" 200), w) /\
  status_code_of (PlainTextResponse "Health Ok!" 200) = 200%Z /\
  media_type_of (PlainTextResponse "Health Ok!" 200) = Some "text/plain" /\
  send_body (PlainTextResponse "Health Ok!" 200) w = (Ok (list_byte_of_string "Health Ok!"), w).
Proof. repeat split. Qed.

(** * Further properties *)

(** ** [mirror_tool] *)

(** X1: mirroring twice gives the text back. *)
Theorem mirror_tool_involutive (t : text) : mirror_tool (mirror_tool t) = t.
Proof. unfold mirror_tool. apply rev_involutive. Qed.

(** X2: the mirrored text has the length of the text, and its code point at
    index [i] is the one the text has at index [len - 1 - i]. *)
Theorem mirror_tool_index (t : text) (i : nat) :
  i < length t ->
  length (mirror_tool t) = length t /\
  nth_error (mirror_tool t) i = nth_error t (length t - 1 - i).
Proof.
  intros Hi. unfold mirror_tool. split; [apply length_rev|].
  rewrite nth_error_rev. apply Nat.ltb_lt in Hi. rewrite Hi.
  f_equal. rewrite <- Nat.sub_add_distr. reflexivity.
Qed.

Lemma mirror_tool_index_witness :
  2 < length [104; 101; 108; 108; 111]%N /\
  nth_error (mirror_tool [104; 101; 108; 108; 111]%N) 2 = Some 108%N /\
  nth_error (mirror_tool [104; 101; 108; 108; 111]%N) 0 = Some 111%N.
Proof.
  assert (H2 : 2 < length [104; 101; 108; 108; 111]%N) by (simpl; repeat constructor).
  assert (H0 : 0 < length [104; 101; 108; 108; 111]%N) by (simpl; repeat constructor).
  split; [exact H2|]. split.
  - exact (proj2 (mirror_tool_index [104; 101; 108; 108; 111]%N H2)).
  - exact (proj2 (mirror_tool_index [104; 101; 108; 108; 111]%N H0)).
Defined.

(** X3: the mirror of a concatenation is the concatenation of the mirrors, in
    the other order. *)
Theorem mirror_tool_app (a b : text) :
  mirror_tool (a ++ b) = mirror_tool b ++ mirror_tool a.
Proof. unfold mirror_tool. apply rev_app_distr. Qed.

(** ** More on the default document *)

Lemma append_nil_r (s : string) : (s ++ "")%string = s.
Proof. induction s; simpl; congruence. Qed.

Lemma append_assoc3 (s t u : string) : ((s ++ t) ++ u)%string = (s ++ t ++ u)%string.
Proof. induction s; simpl; congruence. Qed.

Lemma app_truthy (s t : string) : truthy t = true -> truthy (s ++ t) = true.
Proof. destruct s; simpl; auto. Qed.

Lemma endswith_app_sep (s t : string) :
  truthy t = true -> endswith (s ++ t) "/" = endswith t "/".
Proof.
  intros Ht. induction s as [|c s IH]; [reflexivity|].
  change (endswith (String c s ++ t) "/")
    with (String.eqb (String c (s ++ t)) "/" || endswith (s ++ t) "/").
  rewrite IH. pose proof (app_truthy s t Ht) as Hst.
  destruct (s ++ t)%string; [discriminate Hst|].
  simpl. now destruct (Ascii.eqb c "/").
Qed.

Lemma rstrip_app_sep (s : string) : rstrip (s ++ "/") "/" = rstrip s "/".
Proof.
  induction s as [|c s IH]; [reflexivity|].
  cbn [append rstrip]. now rewrite IH.
Qed.

Lemma rstrip_app_seps (s : string) (n : nat) :
  rstrip (s ++ times "/" n) "/" = rstrip s "/".
Proof.
  revert s. induction n as [|n IH]; intros s; cbn [times].
  - now rewrite append_nil_r.
  - change ("/" ++ times "/" n)%string with (String "/" (times "/" n)).
    change (String "/" (times "/" n)) with ("/" ++ times "/" n)%string.
    now rewrite <- append_assoc3, IH, rstrip_app_sep.
Qed.

Lemma endswith_app_seps (s : string) (n : nat) :
  endswith s "/" = true -> endswith (s ++ times "/" n) "/" = true.
Proof.
  intros H. destruct n as [|n].
  - cbn [times]. now rewrite append_nil_r.
  - rewrite endswith_app_sep by reflexivity.
    induction n as [|n IH]; [reflexivity|].
    change (times "/" (S (S n))) with (String "/" (times "/" (S n))).
    change (endswith (String "/" (times "/" (S n))) "/")
      with (String.eqb (String "/" (times "/" (S n))) "/" || endswith (times "/" (S n)) "/").
    rewrite IH. apply orb_true_r.
Qed.

Lemma default_document_not_dir (filepath : string) :
  truthy (default_document filepath) = true /\
  endswith (default_document filepath) "/" = false.
Proof.
  unfold default_document.
  destruct filepath as [|c rest]; [split; reflexivity|].
  cbn [truthy negb orb].
  destruct (endswith (String c rest) "/") eqn:E.
  - split; [now apply app_truthy|]. now rewrite endswith_app_sep.
  - split; [reflexivity | exact E].
Qed.

(** X4: whatever the [filepath], the name that is joined to the root is not
    empty and does not end with a separator, so the default-document step
    changes nothing when it is applied again. *)
Theorem default_document_names_a_file (filepath : string) :
  truthy (default_document filepath) = true /\
  endswith (default_document filepath) "/" = false /\
  default_document (default_document filepath) = default_document filepath.
Proof.
  destruct (default_document_not_dir filepath) as [H1 H2].
  split; [exact H1|]. split; [exact H2|]. now apply default_document_file.
Qed.

(** X5: a [filepath] that ends with a separator is served like the same
    [filepath] with more separators at its end: the handler asks the same
    filesystem calls and gives the same answer. *)
Theorem trailing_separators_collapse
    (STATIC_DIR : Path) (request request' : Request) (w : World) (n : nat) :
  endswith (dict_get (path_params request) "filepath" "") "/" = true ->
  dict_get (path_params request') "filepath" "" =
  (dict_get (path_params request) "filepath" "" ++ times "/" n)%string ->
  requested_file STATIC_DIR request' = requested_file STATIC_DIR request /\
  serve_static STATIC_DIR request' w = serve_static STATIC_DIR request w.
Proof.
  intros Hend Hmore.
  assert (Hreq : requested_file STATIC_DIR request' = requested_file STATIC_DIR request).
  { unfold requested_file. rewrite Hmore.
    rewrite (default_document_dir _ Hend).
    rewrite (default_document_dir _ (endswith_app_seps _ n Hend)).
    now rewrite rstrip_app_seps. }
  split; [exact Hreq|]. rewrite !serve_static_run. cbv zeta. now rewrite Hreq.
Qed.

Lemma trailing_separators_collapse_witness :
  endswith "docs/" "/" = true /\
  fst (get_static "docs///") = fst (get_static "docs/").
Proof.
  split; [reflexivity|].
  exact (f_equal fst (proj2 (trailing_separators_collapse srv_static
           (static_request "docs/") (static_request "docs///")
           (Posix.boot srv_disk) 2 eq_refl eq_refl))).
Defined.

Lemma rstrip_only_seps (n : nat) : rstrip (times "/" n) "/" = "".
Proof.
  induction n as [|n IH]; [reflexivity|].
  change (times "/" (S n)) with (String "/" (times "/" n)).
  cbn [rstrip]. now rewrite IH.
Qed.

(** X6: a [filepath] made of separators only does not name the index of the
    asset root, as the empty [filepath] does: it becomes [/index.html], which
    the join takes as an absolute path, whatever the root is. *)
Theorem only_separators_leave_root
    (STATIC_DIR : Path) (request : Request) (n : nat) :
  dict_get (path_params request) "filepath" "" = times "/" (S n) ->
  requested_file STATIC_DIR request = mkPath "/" ["index.html"] /\
  requested_file STATIC_DIR (mkRequest (url_path request) (query_string request)
                               [("filepath", "")])
  = mkPath (root STATIC_DIR) (tail STATIC_DIR ++ ["index.html"]).
Proof.
  intros H. split; [|reflexivity].
  unfold requested_file. rewrite H.
  rewrite default_document_dir by (apply (endswith_app_seps "/" n); reflexivity).
  rewrite rstrip_only_seps. reflexivity.
Qed.

Lemma only_separators_leave_root_witness :
  requested_file srv_static (static_request "//") = abs_path ["index.html"] /\
  fst (get_static "//") = Ok forbidden.
Proof.
  split.
  - exact (proj1 (only_separators_leave_root srv_static (static_request "//") (n:=1) eq_refl)).
  - vm_compute. reflexivity.
Defined.

(** ** What [serve_static] answers *)

Lemma file_response_inv
    (STATIC_DIR : Path) (request : Request) (w : World) (p : Path) :
  fst (serve_static STATIC_DIR request w) = Ok (FileResponse p) ->
  fs_resolve (fs w) (requested_file STATIC_DIR request) = Ok p /\
  (exists r, fs_resolve (fs w) STATIC_DIR = Ok r /\ startswith (str p) (str r) = true) /\
  fs_stat (fs w) p = Some Regular.
Proof.
  rewrite serve_static_run. cbv zeta.
  destruct (fs_resolve (fs w) (requested_file STATIC_DIR request)) as [c|[]];
    try discriminate.
  destruct (fs_resolve (fs w) STATIC_DIR) as [r|[]]; try discriminate.
  destruct (startswith (str c) (str r)) eqn:Hpre; [|discriminate].
  cbn [fst]. destruct (stat_is_regular (fs w) c) as [[]|] eqn:Hstat; try discriminate.
  intros [= <-]. split; [reflexivity|].
  split; [now exists r | now apply stat_is_regular_true].
Qed.

(** X7: a [FileResponse] is only ever given for the resolved form of the
    requested file, when the root resolves too, the string of the one starts
    with the string of the other, and the file is a regular file. *)
Theorem file_response_passed_every_check
    (STATIC_DIR : Path) (request : Request) (w : World) (p : Path) :
  fst (serve_static STATIC_DIR request w) = Ok (FileResponse p) ->
  fs_resolve (fs w) (requested_file STATIC_DIR request) = Ok p /\
  (exists r, fs_resolve (fs w) STATIC_DIR = Ok r /\ startswith (str p) (str r) = true) /\
  fs_stat (fs w) p = Some Regular.
Proof. apply file_response_inv. Qed.

Lemma file_response_passed_every_check_witness :
  fst (get_static "docs/") = Ok (FileResponse (abs_path ["srv"; "static"; "docs"; "index.html"])) /\
  fs_stat (fs (Posix.boot srv_disk)) (abs_path ["srv"; "static"; "docs"; "index.html"])
  = Some Regular.
Proof.
  assert (H : fst (get_static "docs/")
              = Ok (FileResponse (abs_path ["srv"; "static"; "docs"; "index.html"])))
    by (vm_compute; reflexivity).
  split; [exact H|].
  exact (proj2 (proj2 (file_response_passed_every_check srv_static
                         (static_request "docs/") (Posix.boot srv_disk) H))).
Defined.

(** X8: the handler has four outcomes and no other: a [FileResponse] (status
    200), the 403 page, the 404 page, or an [OSError] that it does not catch.
    It never redirects and never lets a [ValueError] or a [RuntimeError]
    out.  It asks the filesystem at most four calls. *)
Theorem serve_static_outcomes (STATIC_DIR : Path) (request : Request) (w : World) :
  let run := serve_static STATIC_DIR request w in
  ((exists p, fst run = Ok (FileResponse p)) \/
   fst run = Ok (HTMLResponse "Forbidden" 403) \/
   fst run = Ok (HTMLResponse "Not Found" 404) \/
   fst run = Raise OSError) /\
  (forall response, fst run = Ok response ->
     status_code_of response = 200%Z \/ status_code_of response = 403%Z \/
     status_code_of response = 404%Z) /\
  exists new, calls (snd run) = calls w ++ new /\ length new <= 4.
Proof.
  intros run. subst run. rewrite serve_static_run. cbv zeta.
  set (f := requested_file STATIC_DIR request).
  destruct (fs_resolve (fs w) f) as [c|e].
  - destruct (fs_resolve (fs w) STATIC_DIR) as [r|e].
    + destruct (startswith (str c) (str r)).
      * split; [|split].
        -- cbn [fst]. destruct (stat_is_regular (fs w) c) as [[]|e] eqn:E; eauto.
           destruct (stat_is_regular_raise _ _ E) as [-> _]. auto.
        -- cbn [fst]. intros response.
           destruct (stat_is_regular (fs w) c) as [[]|e]; try discriminate;
             intros [= <-]; cbn; auto.
        -- exists [SysResolve f; SysResolve STATIC_DIR; SysResolve STATIC_DIR; SysStat c].
           cbn [snd log calls fs length]. rewrite <- !app_assoc. split; [reflexivity|].
           repeat constructor.
      * split; [auto|split].
        -- intros response [= <-]. cbn; auto.
        -- exists [SysResolve f; SysResolve STATIC_DIR; SysResolve STATIC_DIR].
           cbn [snd log calls fs length]. rewrite <- !app_assoc. split; [reflexivity|].
           repeat constructor.
    + assert (Hcalls : forall x : result Response,
                exists new, calls (snd (x, log (SysResolve STATIC_DIR) (log (SysResolve f) w)))
                            = calls w ++ new /\ length new <= 4).
      { intros x. exists [SysResolve f; SysResolve STATIC_DIR].
        cbn [snd log calls fs length]. rewrite <- !app_assoc. split; [reflexivity|].
        repeat constructor. }
      destruct e; (split; [auto|split; [|apply Hcalls]]);
        intros response; cbn [fst]; try discriminate; intros [= <-]; cbn; auto.
  - assert (Hcalls : forall x : result Response,
              exists new, calls (snd (x, log (SysResolve f) w)) = calls w ++ new /\
                          length new <= 4).
    { intros x. exists [SysResolve f]. cbn [snd log calls fs length].
      split; [reflexivity|]. repeat constructor. }
    destruct e; (split; [auto|split; [|apply Hcalls]]);
      intros response; cbn [fst]; try discriminate; intros [= <-]; cbn; auto.
Qed.

(** X9: the root itself is resolved inside the same [try]: when the requested
    file resolves and resolving the root raises [ValueError] or
    [RuntimeError], every request is answered 403, file or no file, after two
    filesystem calls; an [OSError] leaves the handler. *)
Theorem root_failure_forbids_everything
    (STATIC_DIR : Path) (request : Request) (w : World) (c : Path) (e : exn) :
  fs_resolve (fs w) (requested_file STATIC_DIR request) = Ok c ->
  fs_resolve (fs w) STATIC_DIR = Raise e ->
  let run := serve_static STATIC_DIR request w in
  (e = ValueError \/ e = RuntimeError -> fst run = Ok (HTMLResponse "Forbidden" 403)) /\
  (e = OSError -> fst run = Raise OSError) /\
  calls (snd run) =
  calls w ++ [SysResolve (requested_file STATIC_DIR request); SysResolve STATIC_DIR].
Proof.
  intros Hc Hr run. subst run. rewrite serve_static_run. cbv zeta. rewrite Hc, Hr.
  split; [intros [-> | ->]; reflexivity|].
  split; [intros ->; reflexivity|].
  destruct e; cbn [snd log calls fs]; now rewrite <- app_assoc.
Qed.

Lemma root_failure_forbids_everything_witness :
  let looping := parse_path "/srv/static/loop" in
  fs_resolve (fs (Posix.boot srv_disk)) looping = Raise RuntimeError /\
  fst (serve_static looping (static_request "/etc/passwd") (Posix.boot srv_disk))
  = Ok (HTMLResponse "Forbidden" 403).
Proof.
  intros looping.
  assert (Hc : fs_resolve (fs (Posix.boot srv_disk))
                 (requested_file looping (static_request "/etc/passwd"))
               = Ok (abs_path ["etc"; "passwd"])) by (vm_compute; reflexivity).
  assert (Hr : fs_resolve (fs (Posix.boot srv_disk)) looping = Raise RuntimeError)
    by (vm_compute; reflexivity).
  split; [exact Hr|].
  exact (proj1 (root_failure_forbids_everything looping (static_request "/etc/passwd")
                  (Posix.boot srv_disk) Hc Hr) (or_intror eq_refl)).
Defined.

Lemma dict_get_missing (d : list (string * string)) (key default : string) :
  (forall v, ~ In (key, v) d) -> dict_get d key default = default.
Proof.
  induction d as [|[k v] d IH]; intros H; [reflexivity|].
  cbn [dict_get]. destruct (String.eqb_spec k key) as [->|_].
  - exfalso. apply (H v). now left.
  - apply IH. intros v' Hin. apply (H v'). now right.
Qed.

(** X10: a request without a [filepath] parameter is served like the empty
    [filepath]: the handler targets [index.html] under the root and runs as it
    does for [filepath = ""]. *)
Theorem missing_filepath_is_index
    (STATIC_DIR : Path) (request : Request) (w : World) :
  (forall v, ~ In ("filepath", v) (path_params request)) ->
  requested_file STATIC_DIR request =
  mkPath (root STATIC_DIR) (tail STATIC_DIR ++ ["index.html"]) /\
  serve_static STATIC_DIR request w =
  serve_static STATIC_DIR (mkRequest (url_path request) (query_string request)
                             [("filepath", "")]) w.
Proof.
  intros H.
  assert (Hreq : requested_file STATIC_DIR request =
                 mkPath (root STATIC_DIR) (tail STATIC_DIR ++ ["index.html"])).
  { unfold requested_file. now rewrite dict_get_missing by exact H. }
  split; [exact Hreq|]. rewrite !serve_static_run. cbv zeta. now rewrite Hreq.
Qed.

Lemma missing_filepath_is_index_witness :
  (forall v, ~ In ("filepath", v) (path_params (mkRequest "/static/" "" []))) /\
  fst (serve_static srv_static (mkRequest "/static/" "" []) (Posix.boot srv_disk))
  = fst (get_static "").
Proof.
  assert (H : forall v, ~ In ("filepath", v) (path_params (mkRequest "/static/" "" [])))
    by (intros v []).
  split; [exact H|].
  exact (f_equal fst (proj2 (missing_filepath_is_index srv_static
                               (mkRequest "/static/" "" []) (Posix.boot srv_disk) H))).
Defined.

(** ** Relative requests *)

Lemma list_prefix_app (xs ys : list string) : list_prefix xs (xs ++ ys) = true.
Proof.
  induction xs as [|x xs IH]; [reflexivity|].
  change (list_prefix (x :: xs) ((x :: xs) ++ ys))
    with (String.eqb x x && list_prefix xs (xs ++ ys)).
  now rewrite String.eqb_refl, IH.
Qed.

Lemma parse_path_relative (s : string) :
  startswith s "/" = false -> root (parse_path s) = "".
Proof. intros H. unfold parse_path, splitroot. now rewrite H. Qed.

Lemma default_document_relative (filepath : string) :
  startswith filepath "/" = false -> startswith (default_document filepath) "/" = false.
Proof.
  intros H. unfold default_document.
  destruct filepath as [|c rest]; [reflexivity|].
  cbn [truthy negb orb].
  destruct (endswith (String c rest) "/"); [|exact H].
  destruct (rstrip_head c rest) as [E | [r ->]].
  - exfalso. cbn [rstrip] in E. cbn [startswith] in H.
    destruct (rstrip rest "/"); [|discriminate E].
    cbn [contains] in E. rewrite orb_false_r in E.
    destruct (Ascii.eqb c "/"); [discriminate H | discriminate E].
  - exact H.
Qed.

(** X11: for a [filepath] that does not begin with a separator the join keeps
    the root and only appends components, so before it is resolved the
    requested file is, component by component, under the root ([".."]
    components are still in it: the join resolves nothing). *)
Theorem relative_filepath_extends_root (STATIC_DIR : Path) (request : Request) :
  startswith (dict_get (path_params request) "filepath" "") "/" = false ->
  let filepath := dict_get (path_params request) "filepath" "" in
  root (requested_file STATIC_DIR request) = root STATIC_DIR /\
  tail (requested_file STATIC_DIR request) =
  tail STATIC_DIR ++ tail (parse_path (default_document filepath)) /\
  is_relative_to (requested_file STATIC_DIR request) STATIC_DIR = true.
Proof.
  intros H filepath. subst filepath.
  unfold requested_file, truediv, is_relative_to.
  rewrite (parse_path_relative _ (default_document_relative _ H)).
  cbn [truthy root tail]. rewrite String.eqb_refl, list_prefix_app. now repeat split.
Qed.

Lemma relative_filepath_extends_root_witness :
  startswith "../../etc/passwd" "/" = false /\
  tail (requested_file srv_static (static_request "../../etc/passwd"))
  = ["srv"; "static"; ".."; ".."; "etc"; "passwd"].
Proof.
  split; [reflexivity|].
  destruct (relative_filepath_extends_root srv_static (static_request "../../etc/passwd")
              eq_refl) as (_ & H & _).
  rewrite H. vm_compute. reflexivity.
Defined.

(** ** The routes *)

Lemma dot_star_dollar_line (v : string) :
  contains v newline = false ->
  dot_star_dollar v = Some v /\
  dot_star_dollar (v ++ String newline "") = Some v.
Proof.
  induction v as [|c v IH]; intros H; [split; reflexivity|].
  cbn [contains] in H. apply orb_false_iff in H as [Hc Hv].
  destruct (IH Hv) as [IH1 IH2].
  assert (Hc' : Ascii.eqb c newline = false).
  { apply Ascii.eqb_neq. intros ->. now rewrite Ascii.eqb_refl in Hc. }
  cbn [append dot_star_dollar]. now rewrite Hc', IH1, IH2.
Qed.

Lemma dot_star_dollar_some (s v : string) :
  dot_star_dollar s = Some v ->
  contains v newline = false /\ (s = v \/ s = (v ++ String newline "")%string).
Proof.
  revert v. induction s as [|c s IH]; intros v H; cbn [dot_star_dollar] in H.
  - injection H as <-. now split; [|left].
  - destruct (Ascii.eqb_spec c newline) as [->|Hc].
    + destruct s; [|discriminate H]. injection H as <-. now split; [|right].
    + destruct (dot_star_dollar s) as [v'|]; [|discriminate H].
      injection H as <-. destruct (IH v' eq_refl) as [Hv Hs].
      split.
      * cbn [contains]. rewrite Hv, orb_false_r. apply Ascii.eqb_neq. congruence.
      * destruct Hs as [-> | ->]; [now left | now right].
Qed.

Lemma dot_star_dollar_inner_newline (v more : string) :
  truthy more = true -> dot_star_dollar (v ++ String newline more) = None.
Proof.
  intros Hm. induction v as [|c v IH]; cbn [append dot_star_dollar].
  - unfold newline at 1. rewrite Ascii.eqb_refl. now destruct more.
  - destruct (Ascii.eqb c newline); [|now rewrite IH].
    destruct (v ++ String newline more)%string eqn:E; [|reflexivity].
    destruct v; discriminate E.
Qed.

(** The custom routes on a [GET], route by route. *)
Lemma app_get (STATIC_DIR : Path) (path query : string) :
  app STATIC_DIR "GET" path query =
  if String.eqb "/info" path || String.eqb ("/info" ++ String newline "") path
  then Some (show_info (mkRequest path query []))
  else
    match (if startswith path "/static/" then dot_star_dollar (drop 8 path) else None) with
    | Some value => Some (serve_static STATIC_DIR (mkRequest path query [("filepath", value)]))
    | None =>
        if String.eqb "/" path || String.eqb ("/" ++ String newline "") path
        then Some (root_redirect (mkRequest path query []))
        else None
    end.
Proof.
  unfold app, custom_routes, dispatch, match_pattern.
  change (existsb (String.eqb "GET") (route_methods ["GET"])) with true.
  change (String.length "/static/") with 8.
  destruct (String.eqb "/info" path || String.eqb ("/info" ++ String newline "") path);
    [reflexivity|].
  destruct (startswith path "/static/"); [destruct (dot_star_dollar (drop 8 path))|];
    try reflexivity;
    now destruct (String.eqb "/" path || String.eqb ("/" ++ String newline "") path).
Qed.

(** X12: [GET /static/<rest>] is handled by [serve_static], and the
    [filepath] it reads is [<rest>] as it is, further separators and [".."]
    components included, for every [<rest>] without a newline.  A newline
    that ends the path is cut off, and a path with a newline before its end
    is not handled at all. *)
Theorem static_route_passes_the_rest
    (STATIC_DIR : Path) (rest query : string) :
  contains rest newline = false ->
  app STATIC_DIR "GET" ("/static/" ++ rest) query =
  Some (serve_static STATIC_DIR
          (mkRequest ("/static/" ++ rest) query [("filepath", rest)])) /\
  dict_get (path_params (mkRequest ("/static/" ++ rest) query [("filepath", rest)]))
    "filepath" "" = rest /\
  app STATIC_DIR "GET" ("/static/" ++ rest ++ String newline "") query =
  Some (serve_static STATIC_DIR
          (mkRequest ("/static/" ++ rest ++ String newline "") query
             [("filepath", rest)])) /\
  (forall more, truthy more = true ->
     app STATIC_DIR "GET" ("/static/" ++ rest ++ String newline more) query = None).
Proof.
  intros Hrest. destruct (dot_star_dollar_line _ Hrest) as [H1 H2].
  split; [|split; [reflexivity|split]].
  - rewrite app_get.
    change (String.eqb "/info" ("/static/" ++ rest)
            || String.eqb ("/info" ++ String newline "") ("/static/" ++ rest)) with false.
    change (startswith ("/static/" ++ rest) "/static/") with true.
    change (drop 8 ("/static/" ++ rest)) with rest. cbv iota. now rewrite H1.
  - rewrite app_get.
    change (String.eqb "/info" ("/static/" ++ rest ++ String newline "")
            || String.eqb ("/info" ++ String newline "")
                 ("/static/" ++ rest ++ String newline "")) with false.
    change (startswith ("/static/" ++ rest ++ String newline "") "/static/") with true.
    change (drop 8 ("/static/" ++ rest ++ String newline "")) with (rest ++ String newline "")%string.
    cbv iota. now rewrite H2.
  - intros more Hm. rewrite app_get.
    change (String.eqb "/info" ("/static/" ++ rest ++ String newline more)
            || String.eqb ("/info" ++ String newline "")
                 ("/static/" ++ rest ++ String newline more)) with false.
    change (startswith ("/static/" ++ rest ++ String newline more) "/static/") with true.
    change (drop 8 ("/static/" ++ rest ++ String newline more))
      with (rest ++ String newline more)%string.
    cbv iota. rewrite (dot_star_dollar_inner_newline rest more Hm).
    reflexivity.
Qed.

Lemma static_route_passes_the_rest_witness :
  contains "../docs//a.txt" newline = false /\
  app srv_static "GET" "/static/../docs//a.txt" "" =
  Some (serve_static srv_static
          (mkRequest "/static/../docs//a.txt" "" [("filepath", "../docs//a.txt")])).
Proof.
  split; [reflexivity|].
  exact (proj1 (static_route_passes_the_rest srv_static "../docs//a.txt" "" eq_refl)).
Defined.

(** X13: the redirect of [/] leads to the index of the asset root: its target
    is handled by [serve_static] with an empty [filepath], which targets
    [index.html] under the root. *)
Theorem redirect_lands_on_index
    (STATIC_DIR : Path) (request : Request) (query : string) (w : World) :
  exists response url landing,
    root_redirect request w = (Ok response, w) /\
    location_of response = Some url /\
    landing = mkRequest url query [("filepath", "")] /\
    app STATIC_DIR "GET" url query = Some (serve_static STATIC_DIR landing) /\
    requested_file STATIC_DIR landing =
    mkPath (root STATIC_DIR) (tail STATIC_DIR ++ ["index.html"]).
Proof.
  exists (RedirectResponse "/static/" 302), "/static/",
         (mkRequest "/static/" query [("filepath", "")]).
  repeat split.
Qed.

Lemma startswith_app (p rest : string) : startswith (p ++ rest) p = true.
Proof.
  induction p as [|c p IH]; [reflexivity|].
  cbn [append startswith]. now rewrite Ascii.eqb_refl, IH.
Qed.

Lemma startswith_drop (s p : string) :
  startswith s p = true -> s = (p ++ drop (String.length p) s)%string.
Proof.
  revert s. induction p as [|c p IH]; intros s H; [reflexivity|].
  destruct s as [|d s]; cbn [startswith] in H; [discriminate|].
  apply andb_true_iff in H as [Hc Hs]. apply Ascii.eqb_eq in Hc as ->.
  cbn [String.length drop append]. f_equal. now apply IH.
Qed.

(** X14: the custom routes answer a [GET] for [/info], for [/] and for
    [/static/<rest>] where [<rest>] has no newline, each of them also with one
    newline at its end, and for no other path; [/static] without the separator
    is not one of them. *)
Theorem custom_routes_cover (STATIC_DIR : Path) (path query : string) :
  (app STATIC_DIR "GET" path query <> None <->
   path = "/info" \/ path = ("/info" ++ String newline "")%string \/
   path = "/" \/ path = ("/" ++ String newline "")%string \/
   exists rest,
     contains rest newline = false /\
     (path = ("/static/" ++ rest)%string \/
      path = ("/static/" ++ rest ++ String newline "")%string)) /\
  app STATIC_DIR "GET" "/static" query = None.
Proof.
  split; [|reflexivity].
  rewrite app_get.
  destruct (String.eqb_spec "/info" path) as [<-|N1].
  { split; [auto | discriminate]. }
  destruct (String.eqb_spec ("/info" ++ String newline "") path) as [<-|N2].
  { split; [auto | discriminate]. }
  cbn [orb].
  destruct (startswith path "/static/") eqn:Hs.
  - pose proof (startswith_drop _ _ Hs) as Hpath.
    change (String.length "/static/") with 8 in Hpath.
    destruct (dot_star_dollar (drop 8 path)) as [v|] eqn:Hd.
    + split; [intros _ | discriminate].
      destruct (dot_star_dollar_some _ Hd) as [Hv Hrest].
      do 4 right. exists v. split; [exact Hv|].
      destruct Hrest as [E | E]; rewrite E in Hpath; [now left | now right].
    + assert (E : String.eqb "/" path || String.eqb ("/" ++ String newline "") path = false)
        by (rewrite Hpath; reflexivity).
      rewrite E. split; [intros H; now elim H|].
      intros [-> | [-> | [-> | [-> | (rest & Hrest & [-> | ->])]]]];
        try (now elim N1); try (now elim N2); try discriminate Hs; exfalso.
      * change (drop 8 ("/static/" ++ rest)) with rest in Hd.
        destruct (dot_star_dollar_line _ Hrest) as [H _]. congruence.
      * change (drop 8 ("/static/" ++ rest ++ String newline ""))
          with (rest ++ String newline "")%string in Hd.
        destruct (dot_star_dollar_line _ Hrest) as [_ H]. congruence.
  - destruct (String.eqb_spec "/" path) as [<-|N3].
    { split; [auto | discriminate]. }
    destruct (String.eqb_spec ("/" ++ String newline "") path) as [<-|N4].
    { split; [auto 6 | discriminate]. }
    cbn [orb]. split; [intros H; now elim H|].
    intros [-> | [-> | [-> | [-> | (rest & _ & [-> | ->])]]]];
      try (now elim N1); try (now elim N2); try (now elim N3); try (now elim N4);
      discriminate Hs.
Qed.

(** ** The extent of the string-prefix check *)

Lemma join_cons2 (x y : string) (l : list string) :
  join "/" (x :: y :: l) = (x ++ String "/" (join "/" (y :: l)))%string.
Proof. reflexivity. Qed.

Lemma startswith_refl (s : string) : startswith s s = true.
Proof. rewrite <- (append_nil_r s) at 1. apply startswith_app. Qed.

Lemma startswith_app_same (x s t : string) :
  startswith (x ++ s) (x ++ t) = startswith s t.
Proof.
  induction x as [|c x IH]; [reflexivity|].
  cbn [append startswith]. now rewrite Ascii.eqb_refl, IH.
Qed.

Lemma contains_cons (c : ascii) (s : string) :
  contains (String c s) sep = false -> c <> sep /\ contains s sep = false.
Proof.
  cbn [contains]. intros H. apply orb_false_iff in H as [H1 H2].
  split; [|exact H2]. intros ->. unfold sep in H1. now rewrite Ascii.eqb_refl in H1.
Qed.

(** A name without a separator that begins [y/z] begins [y]. *)
Lemma startswith_name (x y z : string) :
  contains x sep = false ->
  startswith (y ++ String "/" z) x = true -> startswith y x = true.
Proof.
  revert y. induction x as [|a x IH]; intros y Hx H; [reflexivity|].
  apply contains_cons in Hx as [Ha Hx].
  destruct y as [|b y]; cbn [append startswith] in *.
  - apply andb_true_iff in H as [H _]. apply Ascii.eqb_eq in H. now elim Ha.
  - apply andb_true_iff in H as [Hb H]. rewrite Hb. now apply IH.
Qed.

(** A string that begins with [x/] has a separator in it. *)
Lemma startswith_dir_has_sep (x y z : string) :
  startswith y (x ++ String "/" z) = true -> contains y sep = true.
Proof.
  revert y. induction x as [|a x IH]; intros y H;
    destruct y as [|b y]; cbn [append startswith] in H; try discriminate;
    apply andb_true_iff in H as [Hb H]; cbn [contains].
  - apply Ascii.eqb_eq in Hb as ->. reflexivity.
  - rewrite (IH _ H). apply orb_true_r.
Qed.

(** Two names followed by a separator: the one begins the other only when
    they are the same name. *)
Lemma startswith_same_name (x y s t : string) :
  contains x sep = false -> contains y sep = false ->
  startswith (y ++ String "/" s) (x ++ String "/" t) = true ->
  x = y /\ startswith s t = true.
Proof.
  revert y. induction x as [|a x IH]; intros y Hx Hy H;
    destruct y as [|b y]; cbn [append startswith] in H;
    apply andb_true_iff in H as [Hb H]; apply Ascii.eqb_eq in Hb.
  - now split.
  - apply contains_cons in Hy as [Hy _]. now elim Hy.
  - apply contains_cons in Hx as [Hx _]. now elim Hx.
  - apply contains_cons in Hx as [_ Hx]. apply contains_cons in Hy as [_ Hy].
    destruct (IH y Hx Hy H) as [-> Hst]. subst. now split.
Qed.

Lemma component_ok_inv (x : string) :
  component_ok x = true -> truthy x = true /\ contains x sep = false.
Proof.
  unfold component_ok. intros H. apply andb_true_iff in H as [H1 H2].
  split; [exact H1|]. now apply negb_true_iff in H2.
Qed.

Lemma join_prefix_inside_or_sibling (rs cs : list string) :
  forallb component_ok rs = true -> forallb component_ok cs = true ->
  startswith (join "/" cs) (join "/" rs) = true ->
  list_prefix rs cs = true \/
  exists parent name name' rest,
    rs = parent ++ [name] /\ cs = parent ++ name' :: rest /\
    startswith name' name = true /\ name' <> name.
Proof.
  revert cs. induction rs as [|x rs IH]; intros cs Hrs Hcs H; [now left|].
  cbn [forallb] in Hrs. apply andb_true_iff in Hrs as [Hx Hrs].
  apply component_ok_inv in Hx as [Hx1 Hx2].
  destruct cs as [|y cs].
  { exfalso. destruct rs; cbn in H; destruct x; discriminate. }
  cbn [forallb] in Hcs. apply andb_true_iff in Hcs as [Hy Hcs].
  apply component_ok_inv in Hy as [Hy1 Hy2].
  destruct rs as [|x2 rs].
  - assert (Hyx : startswith y x = true).
    { destruct cs as [|y2 cs]; [exact H|].
      rewrite join_cons2 in H. now apply startswith_name in H. }
    destruct (String.eqb_spec x y) as [->|Hne].
    + left. cbn [list_prefix]. now rewrite String.eqb_refl.
    + right. exists [], x, y, cs. repeat split; auto.
  - rewrite join_cons2 in H. destruct cs as [|y2 cs].
    { exfalso. apply startswith_dir_has_sep in H. cbn [join String.concat] in H.
      congruence. }
    rewrite join_cons2 in H.
    apply startswith_same_name in H as [<- H]; [|assumption|assumption].
    destruct (IH (y2 :: cs) Hrs Hcs H) as [Hin | (parent & name & name' & rest & E1 & E2 & E3 & E4)].
    + left. change (list_prefix (x :: x2 :: rs) (x :: y2 :: cs))
        with (String.eqb x x && list_prefix (x2 :: rs) (y2 :: cs)).
      now rewrite String.eqb_refl.
    + right. exists (x :: parent), name, name', rest.
      rewrite E1, E2. now repeat split.
Qed.

Lemma str_resolved (p : Path) :
  resolved_form p = true ->
  str p = String "/" (join "/" (tail p)) /\ root p = "/" /\
  forallb component_ok (tail p) = true.
Proof.
  unfold resolved_form, str. intros H. apply andb_true_iff in H as [H1 H2].
  apply String.eqb_eq in H1. rewrite H1. now repeat split.
Qed.

Lemma join_prefix_of_inside (rs cs : list string) :
  list_prefix rs cs = true -> startswith (join "/" cs) (join "/" rs) = true.
Proof.
  revert cs. induction rs as [|x rs IH]; intros cs H; [reflexivity|].
  destruct cs as [|y cs]; [discriminate H|].
  change (list_prefix (x :: rs) (y :: cs)) with (String.eqb x y && list_prefix rs cs) in H.
  apply andb_true_iff in H as [Hxy H]. apply String.eqb_eq in Hxy as <-.
  destruct rs as [|x2 rs].
  - destruct cs as [|y2 cs]; [apply startswith_refl|].
    rewrite join_cons2. apply startswith_app.
  - destruct cs as [|y2 cs]; [discriminate H|].
    rewrite !join_cons2, startswith_app_same. cbn [startswith].
    rewrite Ascii.eqb_refl. now apply IH.
Qed.

(** X15: how far the string test lets a request go.  When the root and the
    file resolve to absolute paths made of file names, a file that is served
    is under the root, or it is under a sibling of the root whose name begins
    with the name of the root and is longer ([static-evil] beside [static]);
    nothing else gets through. *)
Theorem served_file_is_inside_or_sibling
    (STATIC_DIR : Path) (request : Request) (w : World) (p r : Path) :
  fst (serve_static STATIC_DIR request w) = Ok (FileResponse p) ->
  fs_resolve (fs w) STATIC_DIR = Ok r ->
  resolved_form p = true -> resolved_form r = true ->
  is_relative_to p r = true \/
  exists parent name name' rest,
    tail r = parent ++ [name] /\ tail p = parent ++ name' :: rest /\
    startswith name' name = true /\ name' <> name.
Proof.
  intros Hrun Hr Hp Hrf.
  destruct (file_response_inv _ _ _ Hrun) as (_ & (r' & Hr' & Hpre) & _).
  rewrite Hr in Hr'. injection Hr' as <-.
  destruct (str_resolved _ Hp) as (Sp & Rp & Cp).
  destruct (str_resolved _ Hrf) as (Sr & Rr & Cr).
  rewrite Sp, Sr in Hpre. cbn [startswith] in Hpre.
  apply andb_true_iff in Hpre as [_ Hpre].
  destruct (join_prefix_inside_or_sibling _ _ Cr Cp Hpre) as [Hin | Hsib].
  - left. unfold is_relative_to. now rewrite Rp, Rr, Hin.
  - right. exact Hsib.
Qed.

Lemma served_file_is_inside_or_sibling_witness :
  let secret := abs_path ["srv"; "static-evil"; "secret.txt"] in
  fst (get_static "../static-evil/secret.txt") = Ok (FileResponse secret) /\
  resolved_form secret = true /\
  (is_relative_to secret (abs_path ["srv"; "static"]) = true \/
   exists parent name name' rest,
     ["srv"; "static"] = parent ++ [name] /\
     ["srv"; "static-evil"; "secret.txt"] = parent ++ name' :: rest /\
     startswith name' name = true /\ name' <> name).
Proof.
  intros secret.
  assert (Hrun : fst (get_static "../static-evil/secret.txt") = Ok (FileResponse secret))
    by (vm_compute; reflexivity).
  assert (Hr : fs_resolve (fs (Posix.boot srv_disk)) srv_static
               = Ok (abs_path ["srv"; "static"])) by (vm_compute; reflexivity).
  assert (Hp : resolved_form secret = true) by (vm_compute; reflexivity).
  assert (Hrf : resolved_form (abs_path ["srv"; "static"]) = true)
    by (vm_compute; reflexivity).
  split; [exact Hrun|]. split; [exact Hp|].
  exact (served_file_is_inside_or_sibling srv_static
           (static_request "../static-evil/secret.txt") (Posix.boot srv_disk)
           Hrun Hr Hp Hrf).
Defined.

(** X16: the check refuses no file of the root: when the resolved file is,
    component by component, under the resolved root, the request is never
    answered 403; it gets what the existence check gives: the file, 404, or
    the [OSError] of [is_file]. *)
Theorem inside_root_is_never_forbidden
    (STATIC_DIR : Path) (request : Request) (w : World) (c r : Path) :
  fs_resolve (fs w) (requested_file STATIC_DIR request) = Ok c ->
  fs_resolve (fs w) STATIC_DIR = Ok r ->
  root r = "/" ->
  is_relative_to c r = true ->
  let run := serve_static STATIC_DIR request w in
  startswith (str c) (str r) = true /\
  fst run <> Ok (HTMLResponse "Forbidden" 403) /\
  (fst run = Ok (FileResponse c) \/ fst run = Ok (HTMLResponse "Not Found" 404) \/
   fst run = Raise OSError).
Proof.
  intros Hc Hr Hroot Hin run. subst run.
  assert (Hpre : startswith (str c) (str r) = true).
  { unfold is_relative_to in Hin. apply andb_true_iff in Hin as [Hrc Hin].
    apply String.eqb_eq in Hrc. unfold str. rewrite Hrc, Hroot.
    cbn [append startswith]. rewrite Ascii.eqb_refl.
    now apply join_prefix_of_inside. }
  split; [exact Hpre|].
  rewrite serve_static_run. cbv zeta. rewrite Hc, Hr, Hpre. cbn [fst].
  destruct (stat_is_regular (fs w) c) as [[]|e] eqn:E; split; auto; try discriminate.
  destruct (stat_is_regular_raise _ _ E) as [-> _]. auto.
Qed.

Lemma inside_root_is_never_forbidden_witness :
  is_relative_to (abs_path ["srv"; "static"; "missing.txt"]) (abs_path ["srv"; "static"])
  = true /\
  fst (get_static "missing.txt") <> Ok (HTMLResponse "Forbidden" 403).
Proof.
  assert (Hc : fs_resolve (fs (Posix.boot srv_disk))
                 (requested_file srv_static (static_request "missing.txt"))
               = Ok (abs_path ["srv"; "static"; "missing.txt"])) by (vm_compute; reflexivity).
  assert (Hr : fs_resolve (fs (Posix.boot srv_disk)) srv_static
               = Ok (abs_path ["srv"; "static"])) by (vm_compute; reflexivity).
  assert (Hin : is_relative_to (abs_path ["srv"; "static"; "missing.txt"])
                  (abs_path ["srv"; "static"]) = true) by (vm_compute; reflexivity).
  split; [exact Hin|].
  exact (proj1 (proj2 (inside_root_is_never_forbidden srv_static
                         (static_request "missing.txt") (Posix.boot srv_disk)
                         Hc Hr eq_refl Hin))).
Defined.
